(** * manim/animation/animation.py : the Animation base class, Wait and
      prepare_animation.

    Numbers.  The module computes on Python [float]s, binary64.  Two
    readings of its arithmetic are given.  The methods are embedded over
    exact rationals [Q], with numeric equality [==] for Python's [==]:
    this is the reading in which the formulas of the specification are
    stated, and a property of [get_sub_alpha] is stated over it only when
    rounding does not break it.  Module [Binary64] runs the same lines on
    binary64 itself, where rounding, overflow and NaN show; it decides
    what rounding and NaN break.

    Effects.  The module mutates renderables it does not define
    (manim.mobject).  Their state lives in an abstract [World]; the calls
    the animation code makes on them are the methods of the
    [Collaborators] interface below.  Every method of the module is a
    computation in the monad [M]: it threads the world and records, in
    order, the calls made on collaborators, on the logger and on the
    per-submobject hook. *)

From Stdlib Require Import QArith ZArith List String Bool Lqa Lia.
From Stdlib Require Import DecimalString.
From Stdlib Require PrimFloat Uint63.
Import ListNotations.

Local Open Scope Q_scope.

(** ** Python's builtin [min] and [max] on two numbers

    [max(a, b)] keeps its first argument unless the second is strictly
    greater; [min(a, b)] keeps its first argument unless the second is
    strictly smaller. *)

Definition Qlt_bool (x y : Q) : bool := negb (Qle_bool y x).

Definition py_max (a b : Q) : Q := if Qlt_bool a b then b else a.
Definition py_min (a b : Q) : Q := if Qlt_bool b a then b else a.

(** The specification's [clamp(x, lo, hi)], written from its words. *)
Definition clamp (x lo hi : Q) : Q :=
  if Qlt_bool x lo then lo else if Qlt_bool hi x then hi else x.

(** ** The same arithmetic on binary64

    [of_int] is the conversion of a Python [int] to [float] that [*]
    performs on an [int] operand, for integers below 2^63 in size.  The
    constants [0] and [1] of the source are [int]s; as operands of [max]
    and [min] they compare and print as the floats [0] and [1]. *)

Module Binary64.

Import PrimFloat.
Local Open Scope float_scope.
#[local] Set Warnings "-inexact-float".

Definition py_max (a b : float) : float := if ltb a b then b else a.
Definition py_min (a b : float) : float := if ltb b a then b else a.

Definition of_int (z : Z) : float :=
  if (z <? 0)%Z then - of_uint63 (Uint63.of_Z (- z))
  else of_uint63 (Uint63.of_Z z).

(** [Animation.get_sub_alpha], with [self.lag_ratio] as an argument. *)
Definition get_sub_alpha (lag_ratio alpha : float)
    (index num_submobjects : Z) : float :=
  let full_length := of_int (num_submobjects - 1) * lag_ratio + 1 in
  let value := alpha * full_length in
  let lower := of_int index * lag_ratio in
  py_min (py_max (value - lower) 0) 1.

(** The alpha [Animation.interpolate] hands to [interpolate_mobject]. *)
Definition eased_alpha (rate_func : float -> float) (alpha : float) : float :=
  let alpha := py_min (py_max alpha 0) 1 in
  rate_func alpha.

(** The local alpha [Animation.interpolate(alpha)] hands to the hook for
    the member at [index] of a zipped family of [num_submobjects]. *)
Definition local_alpha (rate_func : float -> float) (lag_ratio alpha : float)
    (index num_submobjects : Z) : float :=
  get_sub_alpha lag_ratio (eased_alpha rate_func alpha) index num_submobjects.

(** [0 <= x <= 1] as Python evaluates it. *)
Definition in_unit_interval (x : float) : bool := leb 0 x && leb x 1.

End Binary64.

(** ** Python values, exceptions *)

Inductive Exception : Type :=
| TypeError (msg : string).

Inductive Result (A : Type) : Type :=
| Ok (a : A)
| Raise (e : Exception).
Arguments Ok {A} a.
Arguments Raise {A} e.

Definition is_raise {A : Type} (r : Result A) : bool :=
  match r with Ok _ => false | Raise _ => true end.

(** [str] of a Python [int]. *)
Definition str_int (z : Z) : string := NilZero.string_of_int (Z.to_int z).

(** ** Instances of Animation and of its subclasses *)

Section Instances.

Context {World Mobject : Type}.

(** The class of an instance decides which methods run.  [AnimationBase]
    is [Animation] itself; [AnimationKind] is a subclass that overrides
    only [interpolate_submobject]; [WaitKind] is [Wait], with the
    attributes its constructor adds. *)
Inductive PyClass : Type :=
| AnimationBase
| AnimationKind (cls_name : string)
    (hook : Mobject -> Mobject -> Q -> World -> World)
| WaitKind (duration : Q) (stop_condition : option (unit -> bool))
    (is_static_wait : bool).

Definition class_name (c : PyClass) : string :=
  match c with
  | AnimationBase => "Animation"%string
  | AnimationKind n _ => n
  | WaitKind _ _ _ => "Wait"%string
  end.

(** The attributes set by [Animation.__init__].  [mobject] is annotated
    [Mobject] in the source and never [None] once constructed. *)
Record Animation : Type := {
  klass : PyClass;
  run_time : Q;
  rate_func : Q -> Q;
  name : option string;
  remover : bool;
  suspend_mobject_updating : bool;
  lag_ratio : Q;
  starting_mobject : Mobject;
  mobject : Mobject
}.

End Instances.

Arguments PyClass : clear implicits.
Arguments Animation : clear implicits.

(** ** The collaborators (manim.mobject, manim.scene), as an interface

    [Mobject] is the type of references to renderables, instances of
    [Mobject] or of [OpenGLMobject]; equality of references is Python's
    [is].  [Builder] is the type of the deferred builders
    ([_AnimationBuilder] of mobject and of opengl_mobject), whose [build]
    materialises an animation.  [family_members_with_points] and [str]
    only read the world. *)

Class Collaborators (World : Type) : Type := {
  Mobject : Type;
  Scene : Type;
  Builder : Type;
  (* m1 is m2 *)
  Mobject_is : forall m1 m2 : Mobject, {m1 = m2} + {m1 <> m2};
  (* Mobject() *)
  Mobject_new : World -> Mobject * World;
  (* mob.copy() *)
  Mobject_copy : Mobject -> World -> Mobject * World;
  (* mob.family_members_with_points() *)
  family_members_with_points : Mobject -> World -> list Mobject;
  (* mob.suspend_updating(), mob.resume_updating(), mob.update(dt) *)
  suspend_updating : Mobject -> World -> World;
  resume_updating : Mobject -> World -> World;
  Mobject_update : Mobject -> Q -> World -> World;
  (* mob.shader_wrapper_list = [] *)
  reset_shader_wrapper_list : Mobject -> World -> World;
  (* str(mob) *)
  Mobject_str : Mobject -> World -> string;
  (* scene.remove(mob) *)
  Scene_remove : Scene -> Mobject -> World -> World;
  (* builder.build(), str(builder) *)
  Builder_build : Builder -> World -> Animation World Mobject * World;
  Builder_str : Builder -> World -> string
}.

Section AnimationCore.

Context {World : Type} {collab : Collaborators World}.

Local Abbreviation Animation := (Animation World Mobject).

(** Calls with an effect that the module makes on its collaborators, on
    the logger and on the per-submobject hook. *)
Inductive Call : Type :=
| CallMobjectNew (result : Mobject)
| CallCopy (m result : Mobject)
| CallSuspendUpdating (m : Mobject)
| CallResumeUpdating (m : Mobject)
| CallUpdate (m : Mobject) (dt : Q)
| CallResetShaderWrapperList (m : Mobject)
| CallSceneRemove (scene : Scene) (m : Mobject)
| CallBuild (b : Builder)
| CallInterpolateSubmobject (submobject starting_submobject : Mobject) (alpha : Q)
| LoggerDebug (msg : string)
| LoggerError (msg : list string).

(** ** The monad: world passing with a log of calls *)

Definition M (A : Type) : Type := World -> A * World * list Call.

Definition ret {A : Type} (a : A) : M A := fun w => (a, w, []).

Definition bind {A B : Type} (m : M A) (f : A -> M B) : M B :=
  fun w =>
    let '(a, w1, l1) := m w in
    let '(b, w2, l2) := f a w1 in
    (b, w2, l1 ++ l2).

Notation "x <- m ;; k" := (bind m (fun x => k))
  (at level 61, m at next level, right associativity).
Notation "m ;; k" := (bind m (fun _ => k))
  (at level 61, right associativity).

(** A call that changes the world and returns nothing. *)
Definition call (c : Call) (f : World -> World) : M unit :=
  fun w => (tt, f w, [c]).

(** A call that returns a fresh reference. *)
Definition call_new (c : Mobject -> Call) (f : World -> Mobject * World)
  : M Mobject :=
  fun w => let '(m, w1) := f w in (m, w1, [c m]).

(** A query: reads the world. *)
Definition query {A : Type} (f : World -> A) : M A := fun w => (f w, w, []).

Definition result_of {A : Type} (x : A * World * list Call) : A := fst (fst x).
Definition world_of {A : Type} (x : A * World * list Call) : World := snd (fst x).
Definition calls_of {A : Type} (x : A * World * list Call) : list Call := snd x.

(** [for x in l: body(x)] *)
Fixpoint for_each {A : Type} (l : list A) (body : A -> M unit) : M unit :=
  match l with
  | [] => ret tt
  | x :: l' => body x ;; for_each l' body
  end.

(** [enumerate(l)] *)
Fixpoint enumerate_from {A : Type} (start : Z) (l : list A) : list (Z * A) :=
  match l with
  | [] => []
  | x :: l' => (start, x) :: enumerate_from (start + 1)%Z l'
  end.
Definition enumerate {A : Type} (l : list A) : list (Z * A) := enumerate_from 0%Z l.

(** [len(l)] *)
Definition len {A : Type} (l : list A) : Z := Z.of_nat (List.length l).

(** ** class Animation *)

Definition DEFAULT_ANIMATION_RUN_TIME : Q := 1.
Definition DEFAULT_ANIMATION_LAG_RATIO : Q := 0.


(** The Python values that reach the constructor and the factory. *)
Inductive PyValue : Type :=
| PyNone
| PyInt (z : Z)
| PyStr (s : string)
| PyMobject (m : Mobject)
| PyOpenGLMobject (m : Mobject)
| PyAnimationBuilder (b : Builder)
| PyOpenGLAnimationBuilder (b : Builder)
| PyAnimation (a : Animation).

Definition is_None (v : PyValue) : bool :=
  match v with PyNone => true | _ => false end.
Definition isinstance_Mobject (v : PyValue) : bool :=
  match v with PyMobject _ => true | _ => false end.
Definition isinstance_OpenGLMobject (v : PyValue) : bool :=
  match v with PyOpenGLMobject _ => true | _ => false end.
Definition isinstance_AnimationBuilder (v : PyValue) : bool :=
  match v with PyAnimationBuilder _ => true | _ => false end.
Definition isinstance_OpenGLAnimationBuilder (v : PyValue) : bool :=
  match v with PyOpenGLAnimationBuilder _ => true | _ => false end.
Definition isinstance_Animation (v : PyValue) : bool :=
  match v with PyAnimation _ => true | _ => false end.

Definition logger_debug (msg : string) : M unit := call (LoggerDebug msg) (fun w => w).

Definition new_Mobject : M Mobject := call_new CallMobjectNew Mobject_new.

Definition _typecheck_input (mobject : PyValue) : M (Result unit) :=
  if is_None mobject then
    logger_debug "Animation with empty mobject"%string ;; ret (Ok tt)
  else if negb (isinstance_Mobject mobject)
          && negb (isinstance_OpenGLMobject mobject) then
    ret (Raise (TypeError "Animation only works on Mobjects"%string))
  else ret (Ok tt).

(** [Animation.__init__], for a call without extra keyword arguments on a
    class without a CONFIG attribute.  After the type check [mobject] is
    [None] or a renderable. *)
Definition Animation_init (cls : PyClass World Mobject) (mobject : PyValue)
    (lag_ratio run_time : Q) (rate_func : Q -> Q) (name : option string)
    (remover suspend_mobject_updating : bool) : M (Result Animation) :=
  checked <- _typecheck_input mobject ;;
  match checked with
  | Raise e => ret (Raise e)
  | Ok _ =>
      starting <- new_Mobject ;;
      target <- match mobject with
                | PyMobject m | PyOpenGLMobject m => ret m
                | _ => new_Mobject
                end ;;
      ret (Ok {| klass := cls;
                 run_time := run_time;
                 rate_func := rate_func;
                 name := name;
                 remover := remover;
                 suspend_mobject_updating := suspend_mobject_updating;
                 lag_ratio := lag_ratio;
                 starting_mobject := starting;
                 mobject := target |})
  end.

(** Keyword arguments that [Animation.__init__] does not name, in the
    order of the call: each name with the [repr] of its value. *)
Definition ExtraKwargs : Type := list (string * string).

(** [str(kwargs)] of the dict of extra keyword arguments. *)
Fixpoint dict_items_str (kwargs : ExtraKwargs) : string :=
  match kwargs with
  | [] => EmptyString
  | (k, v) :: rest =>
      ("'" ++ k ++ "': " ++ v ++
       match rest with
       | [] => EmptyString
       | _ => ", " ++ dict_items_str rest
       end)%string
  end.
Definition dict_str (kwargs : ExtraKwargs) : string :=
  ("{" ++ dict_items_str kwargs ++ "}")%string.

Definition logger_error (msg : list string) : M unit :=
  call (LoggerError msg) (fun w => w).

(** [Animation.__init__] in full: [kwargs] are the extra keyword
    arguments and [has_CONFIG] is [hasattr(self, "CONFIG")].  [LoggerDebug]
    holds the message as the logger formats it, with [str(kwargs)] for
    [%s]; the argument of [logger.error] is the pair of strings of the
    source. *)
Definition Animation_init_kwargs (cls : PyClass World Mobject)
    (has_CONFIG : bool) (mobject : PyValue)
    (lag_ratio run_time : Q) (rate_func : Q -> Q) (name : option string)
    (remover suspend_mobject_updating : bool) (kwargs : ExtraKwargs)
  : M (Result Animation) :=
  checked <- _typecheck_input mobject ;;
  match checked with
  | Raise e => ret (Raise e)
  | Ok _ =>
      starting <- new_Mobject ;;
      target <- match mobject with
                | PyMobject m | PyOpenGLMobject m => ret m
                | _ => new_Mobject
                end ;;
      match kwargs with
      | [] => ret tt
      | _ => logger_debug
               ("Animation received extra kwargs: " ++ dict_str kwargs)%string
      end ;;
      (if has_CONFIG then
         logger_error ["CONFIG has been removed from ManimCommunity."%string;
                       "Please use keyword arguments instead."%string]
       else ret tt) ;;
      ret (Ok {| klass := cls;
                 run_time := run_time;
                 rate_func := rate_func;
                 name := name;
                 remover := remover;
                 suspend_mobject_updating := suspend_mobject_updating;
                 lag_ratio := lag_ratio;
                 starting_mobject := starting;
                 mobject := target |})
  end.

(** [Animation.__str__]: the name when it is truthy, else the class name
    around [str(self.mobject)]. *)
Definition Animation_str (self : Animation) : M string :=
  match name self with
  | Some n =>
      if (String.length n =? 0)%nat then
        s <- query (Mobject_str (mobject self)) ;;
        ret (class_name (klass self) ++ "(" ++ s ++ ")")%string
      else ret n
  | None =>
      s <- query (Mobject_str (mobject self)) ;;
      ret (class_name (klass self) ++ "(" ++ s ++ ")")%string
  end.

Definition Animation_repr (self : Animation) : M string := Animation_str self.

Definition set_starting_mobject (self : Animation) (m : Mobject) : Animation :=
  {| klass := klass self;
     run_time := run_time self;
     rate_func := rate_func self;
     name := name self;
     remover := remover self;
     suspend_mobject_updating := suspend_mobject_updating self;
     lag_ratio := lag_ratio self;
     starting_mobject := m;
     mobject := mobject self |}.

Definition create_starting_mobject (self : Animation) : M Mobject :=
  call_new (CallCopy (mobject self)) (Mobject_copy (mobject self)).

Definition get_all_mobjects (self : Animation) : Mobject * Mobject :=
  (mobject self, starting_mobject self).

(** [zip] of the two families: as long as the shorter one. *)
Definition get_all_families_zipped (self : Animation)
  : M (list (Mobject * Mobject)) :=
  let '(mob, starting) := get_all_mobjects self in
  query (fun w =>
    combine (family_members_with_points mob w)
            (family_members_with_points starting w)).

Definition get_all_mobjects_to_update (self : Animation) : list Mobject :=
  let '(mob, starting) := get_all_mobjects self in
  filter (fun m => if Mobject_is m (mobject self) then false else true)
         [mob; starting].

Definition is_remover (self : Animation) : bool := remover self.

Definition get_sub_alpha (self : Animation) (alpha : Q)
    (index num_submobjects : Z) : Q :=
  let lag_ratio := lag_ratio self in
  let full_length := inject_Z (num_submobjects - 1) * lag_ratio + 1 in
  let value := alpha * full_length in
  let lower := inject_Z index * lag_ratio in
  py_min (py_max (value - lower) 0) 1.

(** The hook.  [Animation.interpolate_submobject] is [pass]; an
    [AnimationKind] runs its own. *)
Definition interpolate_submobject (self : Animation)
    (submobject starting_submobject : Mobject) (alpha : Q) : M unit :=
  call (CallInterpolateSubmobject submobject starting_submobject alpha)
       (match klass self with
        | AnimationKind _ hook => hook submobject starting_submobject alpha
        | _ => fun w => w
        end).

Definition interpolate_mobject (self : Animation) (alpha : Q) : M unit :=
  families <- get_all_families_zipped self ;;
  for_each (enumerate families) (fun '(i, mobs) =>
    let sub_alpha := get_sub_alpha self alpha i (len families) in
    interpolate_submobject self (fst mobs) (snd mobs) sub_alpha).

Definition Animation_interpolate (self : Animation) (alpha : Q) : M unit :=
  let alpha := py_min (py_max alpha 0) 1 in
  interpolate_mobject self (rate_func self alpha).

(** ** class Wait(Animation): the overriding methods *)

Definition Wait_begin (self : Animation) : M Animation := ret self.
Definition Wait_finish (self : Animation) : M unit := ret tt.
Definition Wait_clean_up_from_scene (self : Animation) (scene : Scene) : M unit :=
  ret tt.
Definition Wait_update_mobjects (self : Animation) (dt : Q) : M unit := ret tt.
Definition Wait_interpolate (self : Animation) (alpha : Q) : M unit := ret tt.

Definition is_Wait (self : Animation) : bool :=
  match klass self with WaitKind _ _ _ => true | _ => false end.

(** [self.interpolate(alpha)]: the method of the instance's class. *)
Definition interpolate (self : Animation) (alpha : Q) : M unit :=
  if is_Wait self then Wait_interpolate self alpha
  else Animation_interpolate self alpha.

(** ** class Animation: the lifecycle *)

(** [begin] assigns [self.starting_mobject]; the instance after the call
    is returned. *)
Definition Animation_begin (self : Animation) : M Animation :=
  starting <- create_starting_mobject self ;;
  let self := set_starting_mobject self starting in
  (if suspend_mobject_updating self then
     call (CallSuspendUpdating (mobject self)) (suspend_updating (mobject self))
   else ret tt) ;;
  interpolate self 0 ;;
  ret self.

(** [self.mobject is not None]: true of every reference. *)
Definition is_not_None (m : Mobject) : bool := true.

Definition Animation_finish (self : Animation) : M unit :=
  interpolate self 1 ;;
  if suspend_mobject_updating self && is_not_None (mobject self) then
    call (CallResumeUpdating (mobject self)) (resume_updating (mobject self))
  else ret tt.

Definition Animation_clean_up_from_scene (self : Animation) (scene : Scene)
  : M unit :=
  if is_remover self then
    call (CallSceneRemove scene (mobject self)) (Scene_remove scene (mobject self))
  else ret tt.

Definition Animation_update_mobjects (self : Animation) (dt : Q) : M unit :=
  for_each (get_all_mobjects_to_update self) (fun mob =>
    call (CallUpdate mob dt) (Mobject_update mob dt)).

(** Method calls on an instance, resolved by its class. *)
Definition begin (self : Animation) : M Animation :=
  if is_Wait self then Wait_begin self else Animation_begin self.
Definition finish (self : Animation) : M unit :=
  if is_Wait self then Wait_finish self else Animation_finish self.
Definition clean_up_from_scene (self : Animation) (scene : Scene) : M unit :=
  if is_Wait self then Wait_clean_up_from_scene self scene
  else Animation_clean_up_from_scene self scene.
Definition update_mobjects (self : Animation) (dt : Q) : M unit :=
  if is_Wait self then Wait_update_mobjects self dt
  else Animation_update_mobjects self dt.

(** Getters and setters *)
Definition set_run_time (self : Animation) (t : Q) : Animation :=
  {| klass := klass self; run_time := t; rate_func := rate_func self;
     name := name self; remover := remover self;
     suspend_mobject_updating := suspend_mobject_updating self;
     lag_ratio := lag_ratio self; starting_mobject := starting_mobject self;
     mobject := mobject self |}.
Definition get_run_time (self : Animation) : Q := run_time self.
Definition set_rate_func (self : Animation) (f : Q -> Q) : Animation :=
  {| klass := klass self; run_time := run_time self; rate_func := f;
     name := name self; remover := remover self;
     suspend_mobject_updating := suspend_mobject_updating self;
     lag_ratio := lag_ratio self; starting_mobject := starting_mobject self;
     mobject := mobject self |}.
Definition get_rate_func (self : Animation) : Q -> Q := rate_func self.
Definition set_name (self : Animation) (n : string) : Animation :=
  {| klass := klass self; run_time := run_time self; rate_func := rate_func self;
     name := Some n; remover := remover self;
     suspend_mobject_updating := suspend_mobject_updating self;
     lag_ratio := lag_ratio self; starting_mobject := starting_mobject self;
     mobject := mobject self |}.

(** The [**kwargs] of [Wait.__init__], by the parameter of
    [Animation.__init__] each one binds: [None] is a keyword that was not
    passed.  [kw_mobject] is the keyword [mobject]; [kw_extra] are the
    keywords [Animation.__init__] does not name. *)
Record WaitKwargs : Type := {
  kw_mobject : option PyValue;
  kw_lag_ratio : option Q;
  kw_rate_func : option (Q -> Q);
  kw_name : option string;
  kw_remover : option bool;
  kw_suspend_mobject_updating : option bool;
  kw_extra : ExtraKwargs
}.

Definition or_default {A : Type} (given : option A) (default : A) : A :=
  match given with Some a => a | None => default end.

(** [Wait.__init__].  [super().__init__(None, run_time=run_time, **kwargs)]
    is a call with two values for [mobject] when [kwargs] holds that
    keyword: the interpreter raises [TypeError] (message of CPython 3.10)
    before [Animation.__init__] runs.  [smooth] is the default rate
    function, of manim.utils.rate_functions. *)
Definition Wait_init (smooth : Q -> Q) (run_time : Q)
    (stop_condition : option (unit -> bool)) (kwargs : WaitKwargs)
  : M (Result Animation) :=
  match kw_mobject kwargs with
  | Some _ =>
      ret (Raise (TypeError
        "Animation.__init__() got multiple values for argument 'mobject'"))
  | None =>
      made <- Animation_init_kwargs (WaitKind run_time stop_condition false)
                false PyNone
                (or_default (kw_lag_ratio kwargs) DEFAULT_ANIMATION_LAG_RATIO)
                run_time
                (or_default (kw_rate_func kwargs) smooth)
                (kw_name kwargs)
                (or_default (kw_remover kwargs) false)
                (or_default (kw_suspend_mobject_updating kwargs) true)
                (kw_extra kwargs) ;;
      match made with
      | Raise e => ret (Raise e)
      | Ok self =>
          call (CallResetShaderWrapperList (mobject self))
               (reset_shader_wrapper_list (mobject self)) ;;
          ret (Ok self)
      end
  end.

(** ** prepare_animation *)

(** [str(v)], as the f-string of the error message takes it. *)
Definition py_str (v : PyValue) : M string :=
  match v with
  | PyNone => ret "None"%string
  | PyInt z => ret (str_int z)
  | PyStr s => ret s
  | PyMobject m | PyOpenGLMobject m => query (Mobject_str m)
  | PyAnimationBuilder b | PyOpenGLAnimationBuilder b => query (Builder_str b)
  | PyAnimation a => Animation_str a
  end.

Definition build (b : Builder) : M Animation :=
  fun w => let '(a, w1) := Builder_build b w in (a, w1, [CallBuild b]).

Definition prepare_animation (anim : PyValue) : M (Result PyValue) :=
  match anim with
  | PyAnimationBuilder b => built <- build b ;; ret (Ok (PyAnimation built))
  | PyOpenGLAnimationBuilder b => built <- build b ;; ret (Ok (PyAnimation built))
  | PyAnimation _ => ret (Ok anim)
  | _ =>
      s <- py_str anim ;;
      ret (Raise (TypeError
        ("Object " ++ s ++ " cannot be converted to an animation")%string))
  end.

End AnimationCore.

(** ** A small concrete world

    Renderables are numbered records in a heap; a record lists the
    references of its family members with points, whether its updaters
    are suspended, and the time its updaters have seen.  It instantiates
    the interfaces, so that every statement below can be run. *)

Module Toy.

Record Mob : Type := {
  family : list nat;
  suspended : bool;
  clock : Q
}.

Record World : Type := {
  heap : list Mob;
  scene_members : list nat
}.

Definition empty_mob : Mob := {| family := []; suspended := false; clock := 0 |}.

Definition get (m : nat) (w : World) : Mob := nth m (heap w) empty_mob.

Fixpoint replace (m : nat) (x : Mob) (h : list Mob) : list Mob :=
  match h, m with
  | [], _ => []
  | _ :: h', O => x :: h'
  | y :: h', S m' => y :: replace m' x h'
  end.

Definition put (m : nat) (x : Mob) (w : World) : World :=
  {| heap := replace m x (heap w); scene_members := scene_members w |}.

Definition new (w : World) : nat * World :=
  (List.length (heap w),
   {| heap := heap w ++ [empty_mob]; scene_members := scene_members w |}).

(** A copy gets fresh references for the whole family, the root first. *)
Definition copy (m : nat) (w : World) : nat * World :=
  let n := List.length (heap w) in
  let ids := map (Nat.add n) (seq 0 (List.length (family (get m w)))) in
  let root := {| family := ids; suspended := suspended (get m w);
                 clock := clock (get m w) |} in
  let others := map (fun k => {| family := [k]; suspended := false; clock := 0 |})
                    (tl ids) in
  (n, {| heap := heap w ++ root :: others; scene_members := scene_members w |}).

Definition set_suspended (b : bool) (m : nat) (w : World) : World :=
  put m {| family := family (get m w); suspended := b; clock := clock (get m w) |} w.

Definition advance (m : nat) (dt : Q) (w : World) : World :=
  if suspended (get m w) then w
  else put m {| family := family (get m w); suspended := false;
                clock := clock (get m w) + dt |} w.

Definition set_clock (m : nat) (t : Q) (w : World) : World :=
  put m {| family := family (get m w); suspended := suspended (get m w);
           clock := t |} w.

Definition scene_remove (_ : unit) (m : nat) (w : World) : World :=
  {| heap := heap w;
     scene_members := filter (fun k => negb (Nat.eqb k m)) (scene_members w) |}.

Definition Anim : Type := Animation World nat.

(** A hook that writes the local alpha into the submobject's clock. *)
Definition record_alpha (sub start : nat) (alpha : Q) (w : World) : World :=
  set_clock sub alpha w.

(** A builder holds its target; building makes an animation of it. *)
Definition build_on (target : nat) (w : World) : Anim * World :=
  let '(starting, w1) := new w in
  ({| klass := AnimationKind "_MethodAnimation" record_alpha;
      run_time := 1; rate_func := fun t => t; name := None; remover := false;
      suspend_mobject_updating := true; lag_ratio := 0;
      starting_mobject := starting; mobject := target |}, w1).

#[global] Instance collab : Collaborators World := {|
  Mobject := nat;
  Scene := unit;
  Builder := nat;
  Mobject_is := Nat.eq_dec;
  Mobject_new := new;
  Mobject_copy := copy;
  family_members_with_points := fun m w => family (get m w);
  suspend_updating := set_suspended true;
  resume_updating := set_suspended false;
  Mobject_update := advance;
  reset_shader_wrapper_list := fun _ w => w;
  Mobject_str := fun _ _ => "Mobject"%string;
  Scene_remove := scene_remove;
  Builder_build := build_on;
  Builder_str := fun _ _ => "_AnimationBuilder"%string
|}.

Definition PyVal : Type := PyValue (World := World).


(** Three renderables with points under root 0, a copy of them at 3. *)
Definition w3 : World :=
  {| heap := [ {| family := [0; 1; 2]%nat; suspended := false; clock := 0 |};
               {| family := [1%nat]; suspended := false; clock := 0 |};
               {| family := [2%nat]; suspended := false; clock := 0 |};
               {| family := [3; 4; 5]%nat; suspended := false; clock := 0 |};
               {| family := [4%nat]; suspended := false; clock := 0 |};
               {| family := [5%nat]; suspended := false; clock := 0 |} ];
     scene_members := [0%nat] |}.

(** An animation of root 0 with lag ratio 1/2. *)
Definition lagged : Anim :=
  {| klass := AnimationKind "Lagged" record_alpha;
     run_time := 1; rate_func := fun t => t; name := None; remover := false;
     suspend_mobject_updating := true; lag_ratio := 1 # 2;
     starting_mobject := 3%nat; mobject := 0%nat |}.

(** A world with one renderable without points, and a Wait on it. *)
Definition w0 : World := {| heap := [empty_mob; empty_mob]; scene_members := [] |}.

Definition waiting : Anim :=
  {| klass := WaitKind 1 None false;
     run_time := 1; rate_func := fun t => t; name := None; remover := false;
     suspend_mobject_updating := true; lag_ratio := 0;
     starting_mobject := 0%nat; mobject := 1%nat |}.

Definition still : Anim :=
  {| klass := AnimationBase;
     run_time := 1; rate_func := fun t => t; name := None; remover := false;
     suspend_mobject_updating := true; lag_ratio := 0;
     starting_mobject := 0%nat; mobject := 1%nat |}.

End Toy.

(** * Properties *)

Import PrimFloat.
#[local] Set Warnings "-inexact-float".

(** ** Comparisons and clamping *)

Lemma Qlt_bool_iff (x y : Q) : Qlt_bool x y = true <-> x < y.
Proof.
  unfold Qlt_bool. rewrite negb_true_iff.
  split; intro H.
  - apply Qnot_le_lt. intro Hle. apply Qle_bool_iff in Hle. congruence.
  - destruct (Qle_bool y x) eqn:E; [|reflexivity].
    apply Qle_bool_iff in E. exfalso. apply (Qlt_not_le _ _ H E).
Qed.

Lemma Qlt_bool_false_iff (x y : Q) : Qlt_bool x y = false <-> y <= x.
Proof.
  unfold Qlt_bool. rewrite negb_false_iff. apply Qle_bool_iff.
Qed.

Lemma Qlt_bool_spec (x y : Q) : reflect (x < y) (Qlt_bool x y).
Proof.
  destruct (Qlt_bool x y) eqn:E; constructor.
  - now apply Qlt_bool_iff.
  - apply Qlt_bool_false_iff in E. now apply Qle_not_lt.
Qed.

Ltac case_Qlt :=
  repeat match goal with
  | |- context [Qlt_bool ?a ?b] => destruct (Qlt_bool_spec a b)
  | H : context [Qlt_bool ?a ?b] |- _ => destruct (Qlt_bool_spec a b)
  end.

Lemma py_clamp_eq (x : Q) : py_min (py_max x 0) 1 = clamp x 0 1.
Proof.
  unfold py_min, py_max, clamp.
  destruct (Qlt_bool_spec x 0) as [Hneg|Hpos].
  - destruct (Qlt_bool_spec 1 0) as [H|_]; [|reflexivity].
    exfalso. revert H. apply Qle_not_lt. discriminate.
  - reflexivity.
Qed.

Lemma clamp_bounds (x : Q) : 0 <= clamp x 0 1 <= 1.
Proof.
  unfold clamp. case_Qlt; lra.
Qed.

Lemma clamp_idem (x : Q) : clamp (clamp x 0 1) 0 1 = clamp x 0 1.
Proof.
  unfold clamp.
  destruct (Qlt_bool_spec x 0) as [H0|H0].
  - reflexivity.
  - destruct (Qlt_bool_spec 1 x) as [H1|H1].
    + reflexivity.
    + destruct (Qlt_bool_spec x 0); [contradiction|].
      destruct (Qlt_bool_spec 1 x); [contradiction|reflexivity].
Qed.

Lemma clamp_Qeq (x y : Q) : x == y -> clamp x 0 1 == clamp y 0 1.
Proof.
  intro E. unfold clamp. case_Qlt; lra.
Qed.

Lemma clamp_nonpos (x : Q) : x <= 0 -> clamp x 0 1 == 0.
Proof.
  intro H. unfold clamp. case_Qlt; lra.
Qed.

Lemma clamp_ge_one (x : Q) : 1 <= x -> clamp x 0 1 == 1.
Proof.
  intro H. unfold clamp. case_Qlt; lra.
Qed.

Lemma clamp_inside (x : Q) : 0 <= x <= 1 -> clamp x 0 1 = x.
Proof.
  intros [H0 H1]. unfold clamp. case_Qlt; try reflexivity; lra.
Qed.

Lemma inject_Z_pred (n : Z) : inject_Z (n - 1) == inject_Z n - 1.
Proof.
  unfold Z.sub. rewrite inject_Z_plus, inject_Z_opp. reflexivity.
Qed.

Section Properties.

Context {World : Type} {collab : Collaborators World}.

Local Abbreviation Anim := (Animation World Mobject).

(** ** get_sub_alpha *)

(** The value [get_sub_alpha] clamps, with the integer subtraction of the
    source. *)
Lemma get_sub_alpha_unfold (self : Anim) (alpha : Q) (i n : Z) :
  get_sub_alpha self alpha i n =
  clamp (alpha * (inject_Z (n - 1) * lag_ratio self + 1)
         - inject_Z i * lag_ratio self) 0 1.
Proof.
  unfold get_sub_alpha. cbv zeta. apply py_clamp_eq.
Qed.

Lemma get_sub_alpha_bounds (self : Anim) (alpha : Q) (i n : Z) :
  0 <= get_sub_alpha self alpha i n <= 1.
Proof.
  rewrite get_sub_alpha_unfold. apply clamp_bounds.
Qed.

(** C1.  For every eased progress [alpha], index [i] and family size [n],
    [get_sub_alpha(alpha, i, n)] is
    [clamp(alpha * ((n - 1) * lag_ratio + 1) - i * lag_ratio, 0, 1)]. *)
Theorem get_sub_alpha_formula (self : Anim) (alpha : Q) (i n : Z) :
  get_sub_alpha self alpha i n ==
  clamp (alpha * ((inject_Z n - 1) * lag_ratio self + 1)
         - inject_Z i * lag_ratio self) 0 1.
Proof.
  rewrite get_sub_alpha_unfold. apply clamp_Qeq.
  rewrite inject_Z_pred. reflexivity.
Qed.

(** C2 (amended).  With lag ratio 1/2 and a family of size 3, at alpha
    0.4 the full length is 2 and the value is 0.8; [get_sub_alpha] gives
    0.8 at index 0, 0.3 at index 1 and 0 at index 2, and these are the
    local alphas [interpolate_mobject] hands to the hook, in family
    order. *)
Theorem get_sub_alpha_scenario (self : Anim) (w : World)
    (p0 p1 p2 : Mobject * Mobject) :
  lag_ratio self == 1 # 2 ->
  result_of (get_all_families_zipped self w) = [p0; p1; p2] ->
  inject_Z (3 - 1) * lag_ratio self + 1 == 2 /\
  (2 # 5) * (inject_Z (3 - 1) * lag_ratio self + 1) == 4 # 5 /\
  get_sub_alpha self (2 # 5) 0 3 == 4 # 5 /\
  get_sub_alpha self (2 # 5) 1 3 == 3 # 10 /\
  get_sub_alpha self (2 # 5) 2 3 == 0 /\
  calls_of (interpolate_mobject self (2 # 5) w) =
    [ CallInterpolateSubmobject (fst p0) (snd p0) (get_sub_alpha self (2 # 5) 0 3);
      CallInterpolateSubmobject (fst p1) (snd p1) (get_sub_alpha self (2 # 5) 1 3);
      CallInterpolateSubmobject (fst p2) (snd p2) (get_sub_alpha self (2 # 5) 2 3) ].
Proof.
  intros Hlag Hfam.
  change (inject_Z (3 - 1)) with (2 # 1).
  repeat split.
  - rewrite Hlag. vm_compute. reflexivity.
  - rewrite Hlag. vm_compute. reflexivity.
  - rewrite get_sub_alpha_unfold.
    rewrite (clamp_Qeq _ (4 # 5)).
    + reflexivity.
    + change (inject_Z (3 - 1)) with (2 # 1). change (inject_Z 0) with 0.
      rewrite Hlag. vm_compute. reflexivity.
  - rewrite get_sub_alpha_unfold.
    rewrite (clamp_Qeq _ (3 # 10)).
    + reflexivity.
    + change (inject_Z (3 - 1)) with (2 # 1). change (inject_Z 1) with 1.
      rewrite Hlag. vm_compute. reflexivity.
  - rewrite get_sub_alpha_unfold.
    rewrite (clamp_Qeq _ (- (1 # 5))).
    + reflexivity.
    + change (inject_Z (3 - 1)) with (2 # 1). change (inject_Z 2) with (2 # 1).
      rewrite Hlag. vm_compute. reflexivity.
  - unfold interpolate_mobject, bind, calls_of.
    unfold get_all_families_zipped, get_all_mobjects, query, result_of in *.
    cbn [fst snd] in *. rewrite Hfam.
    reflexivity.
Qed.

(** In exact arithmetic every member is at 0 when alpha is 0 and at 1
    when alpha is 1. *)
Lemma get_sub_alpha_exact_ends (self : Anim) (i n : Z) :
  0 <= lag_ratio self -> (0 <= i < n)%Z ->
  get_sub_alpha self 0 i n == 0 /\ get_sub_alpha self 1 i n == 1.
Proof.
  intros Hlag0 [Hi0 Hin].
  assert (Hi : 0 <= inject_Z i).
  { change 0 with (inject_Z 0). rewrite <- Zle_Qle. exact Hi0. }
  assert (Hrest : 0 <= inject_Z (n - 1) - inject_Z i).
  { assert (inject_Z i <= inject_Z (n - 1)) by (rewrite <- Zle_Qle; lia). lra. }
  rewrite !get_sub_alpha_unfold. split.
  - apply clamp_nonpos.
    pose proof (Qmult_le_0_compat _ _ Hi Hlag0). lra.
  - apply clamp_ge_one.
    pose proof (Qmult_le_0_compat _ _ Hrest Hlag0). lra.
Qed.

(** C3 (amended).  With a lag ratio in [0,1], a family of size n >= 1 and
    an index 0 <= i < n: [get_sub_alpha(0, i, n) = 0]; the first member
    ends at 1, [get_sub_alpha(1, 0, n) = 1]; and every member ends at 1,
    [get_sub_alpha(1, i, n) = 1], when the lag ratio is 0 or 1.  These are
    the cases in which no operation of the formula rounds. *)
Theorem get_sub_alpha_endpoints_where_exact (self : Anim) (i n : Z) :
  0 <= lag_ratio self <= 1 ->
  (1 <= n)%Z ->
  (0 <= i < n)%Z ->
  get_sub_alpha self 0 i n == 0 /\
  get_sub_alpha self 1 0 n == 1 /\
  (lag_ratio self == 0 \/ lag_ratio self == 1 -> get_sub_alpha self 1 i n == 1).
Proof.
  intros [Hlag0 Hlag1] Hn Hi. split; [|split].
  - apply (get_sub_alpha_exact_ends self i n Hlag0 Hi).
  - apply (get_sub_alpha_exact_ends self 0 n Hlag0). lia.
  - intros _. apply (get_sub_alpha_exact_ends self i n Hlag0 Hi).
Qed.

(** ** interpolate *)

(** C4.  [Animation.interpolate(alpha)] clamps [alpha] to [0,1], applies
    [rate_func] to the clamped value and hands the result to
    [interpolate_mobject]; it behaves as on [clamp(alpha, 0, 1)], for
    every alpha. *)
Theorem Animation_interpolate_clamps (self : Anim) (alpha : Q) (w : World) :
  Animation_interpolate self alpha w =
    interpolate_mobject self (rate_func self (clamp alpha 0 1)) w /\
  Animation_interpolate self alpha w =
    Animation_interpolate self (clamp alpha 0 1) w /\
  interpolate self alpha w = interpolate self (clamp alpha 0 1) w.
Proof.
  assert (E : forall a, Animation_interpolate self a w =
                        interpolate_mobject self (rate_func self (clamp a 0 1)) w).
  { intro a. unfold Animation_interpolate. cbv zeta.
    rewrite py_clamp_eq. reflexivity. }
  split; [apply E|]. split.
  - rewrite (E alpha), (E (clamp alpha 0 1)), clamp_idem. reflexivity.
  - unfold interpolate. destruct (is_Wait self); [reflexivity|].
    rewrite (E alpha), (E (clamp alpha 0 1)), clamp_idem. reflexivity.
Qed.

(** ** The calls a loop makes *)

Lemma for_each_calls {A : Type} (P : Call -> Prop) (body : A -> M unit) :
  (forall x w, Forall P (calls_of (body x w))) ->
  forall l w, Forall P (calls_of (for_each l body w)).
Proof.
  intros Hbody l. induction l as [|x l IH]; intro w; cbn [for_each].
  - constructor.
  - unfold bind. specialize (Hbody x w).
    destruct (body x w) as [[u w1] l1]. specialize (IH w1).
    destruct (for_each l body w1) as [[u2 w2] l2].
    unfold calls_of in *. cbn [snd] in *.
    apply Forall_app. split; assumption.
Qed.

Lemma interpolate_mobject_calls (P : Call -> Prop) (self : Anim) (alpha : Q)
    (w : World) :
  (forall sub start i n,
     P (CallInterpolateSubmobject sub start (get_sub_alpha self alpha i n))) ->
  Forall P (calls_of (interpolate_mobject self alpha w)).
Proof.
  intro HP. unfold interpolate_mobject, bind.
  destruct (get_all_families_zipped self w) as [[families w1] l1] eqn:E.
  assert (l1 = []) as ->.
  { unfold get_all_families_zipped, get_all_mobjects, query in E.
    now inversion E. }
  pose proof (for_each_calls P
    (fun '(i, mobs) =>
       interpolate_submobject self (fst mobs) (snd mobs)
         (get_sub_alpha self alpha i (len families)))) as H.
  cbv zeta.
  match goal with |- context [for_each ?l ?b w1] =>
    specialize (H ltac:(intros [i mobs] w'; repeat constructor; apply HP) l w1);
    destruct (for_each l b w1) as [[u w2] l2]
  end.
  exact H.
Qed.

Lemma interpolate_calls (P : Call -> Prop) (self : Anim) (alpha : Q) (w : World) :
  (forall sub start a i n,
     P (CallInterpolateSubmobject sub start (get_sub_alpha self a i n))) ->
  Forall P (calls_of (interpolate self alpha w)).
Proof.
  intro HP. unfold interpolate. destruct (is_Wait self).
  - constructor.
  - unfold Animation_interpolate. cbv zeta.
    apply interpolate_mobject_calls. intros. apply HP.
Qed.

(** The hook is called with a local alpha that is neither below 0 nor
    above 1. *)
Definition hook_alpha_not_outside_unit (c : Call) : Prop :=
  match c with
  | CallInterpolateSubmobject _ _ alpha => ~ alpha < 0 /\ ~ 1 < alpha
  | _ => True
  end.

Definition is_hook_call (c : Call) : Prop :=
  match c with
  | CallInterpolateSubmobject _ _ _ => True
  | _ => False
  end.

Lemma get_sub_alpha_not_outside (self : Anim) (alpha : Q) (i n : Z) :
  ~ get_sub_alpha self alpha i n < 0 /\ ~ 1 < get_sub_alpha self alpha i n.
Proof.
  destruct (get_sub_alpha_bounds self alpha i n) as [H0 H1].
  split; apply Qle_not_lt; assumption.
Qed.

(** The clamp of [get_sub_alpha] on binary64: its result is never below 0
    and never above 1, whatever the operands, NaN included. *)
Lemma binary64_get_sub_alpha_not_outside (lag alpha : PrimFloat.float)
    (i n : Z) :
  PrimFloat.ltb (Binary64.get_sub_alpha lag alpha i n) 0%float = false /\
  PrimFloat.ltb 1%float (Binary64.get_sub_alpha lag alpha i n) = false.
Proof.
  unfold Binary64.get_sub_alpha. cbv zeta.
  match goal with
  | |- context [Binary64.py_max ?v _] => generalize v
  end.
  intro x. unfold Binary64.py_min, Binary64.py_max.
  destruct (PrimFloat.ltb x 0%float) eqn:E0.
  - split; reflexivity.
  - destruct (PrimFloat.ltb 1%float x) eqn:E1.
    + split; reflexivity.
    + split; assumption.
Qed.

(** C10 (amended).  Every local alpha passed to the hook is never below 0
    and never above 1, for every input alpha, every rate function and
    every lag ratio: through [interpolate], through
    [Animation.interpolate] and through [interpolate_mobject] on any eased
    alpha; and on binary64 the comparisons [local < 0] and [local > 1]
    are both false for every rate function, lag ratio and alpha, NaN
    included. *)
Theorem hook_alphas_never_outside_unit_interval (self : Anim) (alpha : Q)
    (w : World) :
  (Forall hook_alpha_not_outside_unit (calls_of (interpolate self alpha w)) /\
   Forall hook_alpha_not_outside_unit
     (calls_of (Animation_interpolate self alpha w)) /\
   Forall hook_alpha_not_outside_unit
     (calls_of (interpolate_mobject self alpha w))) /\
  (forall (f : PrimFloat.float -> PrimFloat.float) (lag a : PrimFloat.float)
          (i n : Z),
     PrimFloat.ltb (Binary64.local_alpha f lag a i n) 0%float = false /\
     PrimFloat.ltb 1%float (Binary64.local_alpha f lag a i n) = false).
Proof.
  split; [split; [|split]|].
  - apply interpolate_calls. intros. apply get_sub_alpha_not_outside.
  - apply interpolate_mobject_calls. intros. apply get_sub_alpha_not_outside.
  - apply interpolate_mobject_calls. intros. apply get_sub_alpha_not_outside.
  - intros f lag a i n. unfold Binary64.local_alpha.
    apply binary64_get_sub_alpha_not_outside.
Qed.

(** C9.  When the zipped families are empty, [interpolate_mobject(alpha)]
    returns without calling the hook and without changing anything, for
    every alpha. *)
Theorem interpolate_mobject_empty_family (self : Anim) (alpha : Q) (w : World) :
  result_of (get_all_families_zipped self w) = [] ->
  interpolate_mobject self alpha w = (tt, w, []).
Proof.
  intro Hfam. unfold interpolate_mobject, bind.
  unfold get_all_families_zipped, get_all_mobjects, query, result_of in *.
  cbn [fst snd] in *. rewrite Hfam. reflexivity.
Qed.

(** ** The lifecycle *)

(** C7.  [Animation.finish()] runs [interpolate(1)] first and then, exactly
    when [suspend_mobject_updating] is set, resumes the updating of the
    mobject; [interpolate(1)] itself resumes nothing. *)
Theorem Animation_finish_interpolates_then_resumes (self : Anim) (w : World) :
  let after := interpolate self 1 w in
  Animation_finish self w =
    (tt,
     (if suspend_mobject_updating self
      then resume_updating (mobject self) (world_of after)
      else world_of after),
     calls_of after ++
     (if suspend_mobject_updating self
      then [CallResumeUpdating (mobject self)] else [])) /\
  Forall is_hook_call (calls_of after).
Proof.
  cbv zeta. split.
  - unfold Animation_finish, bind, is_not_None.
    destruct (interpolate self 1 w) as [[u w1] l1].
    rewrite andb_true_r. unfold world_of, calls_of. cbn [fst snd].
    destruct (suspend_mobject_updating self); reflexivity.
  - apply interpolate_calls. intros. exact I.
Qed.

(** C8.  For a Wait, [begin], [finish], [clean_up_from_scene],
    [update_mobjects] and [interpolate] return at once: the instance and
    the world are unchanged and no call is made, whatever the arguments. *)
Theorem Wait_methods_are_noops (self : Anim) (scene : Scene) (dt alpha : Q)
    (w : World) :
  is_Wait self = true ->
  begin self w = (self, w, []) /\
  finish self w = (tt, w, []) /\
  clean_up_from_scene self scene w = (tt, w, []) /\
  update_mobjects self dt w = (tt, w, []) /\
  interpolate self alpha w = (tt, w, []).
Proof.
  intro HW.
  unfold begin, finish, clean_up_from_scene, update_mobjects, interpolate.
  rewrite HW. repeat split.
Qed.

(** ** Construction and normalisation *)

(** C6.  Constructing an Animation raises exactly when the target is
    neither [None] nor an instance of [Mobject] or [OpenGLMobject]; the
    error is a [TypeError], and otherwise an instance is returned whose
    mobject is the given renderable. *)
Theorem Animation_init_raises_iff (cls : PyClass World Mobject)
    (target : PyValue) (lag t : Q) (f : Q -> Q) (n : option string)
    (r s : bool) (w : World) :
  let made := result_of (Animation_init cls target lag t f n r s w) in
  (is_raise made = true <->
     is_None target = false /\ isinstance_Mobject target = false /\
     isinstance_OpenGLMobject target = false) /\
  (is_raise made = true ->
     made = Raise (TypeError "Animation only works on Mobjects")) /\
  (is_raise made = false ->
     exists self, made = Ok self /\
       forall m, target = PyMobject m \/ target = PyOpenGLMobject m ->
                 mobject self = m).
Proof.
  cbv zeta.
  unfold Animation_init, _typecheck_input, bind, new_Mobject,
    call_new, logger_debug, call, ret, result_of.
  destruct target; cbn [is_None isinstance_Mobject isinstance_OpenGLMobject
                        negb andb];
    repeat match goal with
    | |- context [Mobject_new ?x] =>
        let m := fresh "m" in let w' := fresh "w" in
        destruct (Mobject_new x) as [m w']
    end;
    cbn [fst snd is_raise];
    (split; [split|split]); intros;
    try discriminate;
    try match goal with
        | H : _ /\ _ /\ _ |- _ => destruct H as (? & ? & ?); discriminate
        end;
    try (repeat split; reflexivity);
    try (eexists; split;
         [reflexivity
         |let E := fresh in intros ? [E|E]; inversion E; reflexivity]).
Qed.

(** C5.  [prepare_animation] returns an Animation as it is; for a builder
    it returns what [build] gives; for anything else it raises a
    [TypeError] whose message carries [str] of the input. *)
Theorem prepare_animation_dispatch (anim : PyValue) (w : World) :
  (isinstance_Animation anim = true ->
     prepare_animation anim w = (Ok anim, w, [])) /\
  (forall b, anim = PyAnimationBuilder b \/ anim = PyOpenGLAnimationBuilder b ->
     prepare_animation anim w =
       (Ok (PyAnimation (fst (Builder_build b w))), snd (Builder_build b w),
        [CallBuild b])) /\
  (isinstance_Animation anim = false ->
   isinstance_AnimationBuilder anim = false ->
   isinstance_OpenGLAnimationBuilder anim = false ->
     prepare_animation anim w =
       (Raise (TypeError ("Object " ++ result_of (py_str anim w)
                          ++ " cannot be converted to an animation")),
        w, [])).
Proof.
  split; [|split].
  - destruct anim; intro H; try discriminate H. reflexivity.
  - intros b [-> | ->]; unfold prepare_animation, build, bind, ret;
      destruct (Builder_build b w) as [a w1]; reflexivity.
  - destruct anim; cbn [isinstance_Animation isinstance_AnimationBuilder
                        isinstance_OpenGLAnimationBuilder];
      intros H1 H2 H3; try discriminate; reflexivity.
Qed.

End Properties.

(** ** The statements, run in the concrete world *)

(** C2, as the specification computes it: refuted.  With lag ratio 1/2 and
    a zipped family of size 3, at alpha 0.4 the full length is not 1.5 and
    the local alphas at indices 0 and 1 are not 0.6 and 0.1. *)
Lemma get_sub_alpha_scenario_spec_values_refuted :
  lag_ratio Toy.lagged == 1 # 2 /\
  List.length (result_of (get_all_families_zipped Toy.lagged Toy.w3)) = 3%nat /\
  ~ (inject_Z (3 - 1) * lag_ratio Toy.lagged + 1 == 3 # 2 /\
     (2 # 5) * (inject_Z (3 - 1) * lag_ratio Toy.lagged + 1) == 3 # 5 /\
     get_sub_alpha Toy.lagged (2 # 5) 0 3 == 3 # 5 /\
     get_sub_alpha Toy.lagged (2 # 5) 1 3 == 1 # 10 /\
     get_sub_alpha Toy.lagged (2 # 5) 2 3 == 0) /\
  ~ get_sub_alpha Toy.lagged (2 # 5) 0 3 == 3 # 5 /\
  ~ get_sub_alpha Toy.lagged (2 # 5) 1 3 == 1 # 10.
Proof.
  split; [reflexivity|]. split; [reflexivity|].
  repeat split.
  - intros (H & _). vm_compute in H. discriminate H.
  - intro H. vm_compute in H. discriminate H.
  - intro H. vm_compute in H. discriminate H.
Qed.

Lemma get_sub_alpha_scenario_witness :
  lag_ratio Toy.lagged == 1 # 2 /\
  result_of (get_all_families_zipped Toy.lagged Toy.w3) =
    [(0, 3); (1, 4); (2, 5)]%nat /\
  get_sub_alpha Toy.lagged (2 # 5) 0 3 == 4 # 5 /\
  get_sub_alpha Toy.lagged (2 # 5) 1 3 == 3 # 10 /\
  get_sub_alpha Toy.lagged (2 # 5) 2 3 == 0.
Proof.
  assert (Hlag : lag_ratio Toy.lagged == 1 # 2) by reflexivity.
  assert (Hfam : result_of (get_all_families_zipped Toy.lagged Toy.w3) =
                 [(0, 3); (1, 4); (2, 5)]%nat) by reflexivity.
  split; [exact Hlag|]. split; [exact Hfam|].
  destruct (get_sub_alpha_scenario (collab := Toy.collab) Toy.lagged Toy.w3 _ _ _ Hlag Hfam)
    as (_ & _ & H0 & H1 & H2 & _).
  repeat split; assumption.
Defined.

(** C3, as the specification states it: refuted on binary64.  With lag
    ratio 0.4, a family of 2 and index 1, [get_sub_alpha(1, 1, 2)] is
    0.9999999999999999, not 1. *)
Lemma get_sub_alpha_endpoints_binary64_refuted :
  Binary64.in_unit_interval 0.4%float = true /\ (1 <= 2)%Z /\ (0 <= 1 < 2)%Z /\
  Binary64.get_sub_alpha 0.4%float 1%float 1 2 = 0x1.fffffffffffffp-1%float /\
  PrimFloat.eqb (Binary64.get_sub_alpha 0.4%float 1%float 1 2) 1%float = false /\
  PrimFloat.ltb (Binary64.get_sub_alpha 0.4%float 1%float 1 2) 1%float = true.
Proof.
  split; [vm_compute; reflexivity|].
  split; [lia|]. split; [lia|].
  repeat split; vm_compute; reflexivity.
Qed.

Lemma get_sub_alpha_endpoints_where_exact_witness :
  0 <= lag_ratio Toy.lagged <= 1 /\ (1 <= 3)%Z /\ (0 <= 1 < 3)%Z /\
  get_sub_alpha Toy.lagged 0 1 3 == 0 /\
  get_sub_alpha Toy.lagged 1 0 3 == 1 /\
  (lag_ratio Toy.lagged == 0 \/ lag_ratio Toy.lagged == 1 ->
   get_sub_alpha Toy.lagged 1 1 3 == 1).
Proof.
  assert (Hlag : 0 <= lag_ratio Toy.lagged <= 1) by (cbn; lra).
  assert (Hn : (1 <= 3)%Z) by lia.
  assert (Hi : (0 <= 1 < 3)%Z) by lia.
  split; [exact Hlag|]. split; [exact Hn|]. split; [exact Hi|].
  exact (get_sub_alpha_endpoints_where_exact (collab := Toy.collab)
           Toy.lagged 1 3 Hlag Hn Hi).
Defined.

(** The amended end cases, run on binary64 at the refuting lag ratio 0.4
    and at the lag ratios 0 and 1. *)
Lemma binary64_end_samples :
  Binary64.get_sub_alpha 0.4%float 0%float 1 2 = 0%float /\
  Binary64.get_sub_alpha 0.4%float 1%float 0 2 = 1%float /\
  Binary64.get_sub_alpha 0%float 1%float 1 2 = 1%float /\
  Binary64.get_sub_alpha 1%float 1%float 1 2 = 1%float /\
  Binary64.get_sub_alpha 1%float 1%float 2 3 = 1%float.
Proof.
  repeat split; vm_compute; reflexivity.
Qed.

(** C10, as stated: refuted on binary64.  A rate function that returns NaN
    and a lag ratio whose products overflow both hand NaN to the hook, and
    NaN is not in [0,1]. *)
Lemma hook_alpha_binary64_nan_refuted :
  PrimFloat.is_nan
    (Binary64.local_alpha (fun _ => PrimFloat.nan) 0.5%float 0.25%float 0 3)
    = true /\
  Binary64.in_unit_interval
    (Binary64.local_alpha (fun _ => PrimFloat.nan) 0.5%float 0.25%float 0 3)
    = false /\
  PrimFloat.is_nan
    (Binary64.local_alpha (fun t => t) 1e308%float 1%float 2 3) = true /\
  Binary64.in_unit_interval
    (Binary64.local_alpha (fun t => t) 1e308%float 1%float 2 3) = false.
Proof.
  repeat split; vm_compute; reflexivity.
Qed.

Lemma interpolate_mobject_empty_family_witness :
  result_of (get_all_families_zipped Toy.still Toy.w0) = [] /\
  interpolate_mobject Toy.still (1 # 2) Toy.w0 = (tt, Toy.w0, []).
Proof.
  assert (Hfam : result_of (get_all_families_zipped Toy.still Toy.w0) = [])
    by reflexivity.
  split; [exact Hfam|].
  exact (interpolate_mobject_empty_family (collab := Toy.collab) Toy.still (1 # 2) Toy.w0 Hfam).
Defined.

Lemma Wait_methods_are_noops_witness :
  is_Wait Toy.waiting = true /\
  begin Toy.waiting Toy.w0 = (Toy.waiting, Toy.w0, []) /\
  finish Toy.waiting Toy.w0 = (tt, Toy.w0, []) /\
  clean_up_from_scene Toy.waiting tt Toy.w0 = (tt, Toy.w0, []) /\
  update_mobjects Toy.waiting (1 # 24) Toy.w0 = (tt, Toy.w0, []) /\
  interpolate Toy.waiting (1 # 2) Toy.w0 = (tt, Toy.w0, []).
Proof.
  assert (HW : is_Wait Toy.waiting = true) by reflexivity.
  split; [exact HW|].
  exact (Wait_methods_are_noops (collab := Toy.collab) Toy.waiting tt (1 # 24) (1 # 2) Toy.w0 HW).
Defined.

Lemma prepare_animation_dispatch_witness :
  prepare_animation (PyAnimation Toy.still) Toy.w0 =
    (Ok (PyAnimation Toy.still), Toy.w0, []) /\
  prepare_animation (PyInt 42 : Toy.PyVal) Toy.w0 =
    (Raise (TypeError "Object 42 cannot be converted to an animation"),
     Toy.w0, []).
Proof.
  split.
  - exact (proj1 (prepare_animation_dispatch (collab := Toy.collab) (PyAnimation Toy.still) Toy.w0)
             eq_refl).
  - exact (proj2 (proj2 (prepare_animation_dispatch (collab := Toy.collab) (PyInt 42) Toy.w0))
             eq_refl eq_refl eq_refl).
Defined.

Lemma Animation_init_raises_iff_witness :
  result_of (Animation_init AnimationBase (PyInt 42 : Toy.PyVal) 0 1
               (fun t => t) None false true Toy.w0)
    = Raise (TypeError "Animation only works on Mobjects") /\
  is_raise (result_of (Animation_init AnimationBase (PyNone : Toy.PyVal) 0 1
               (fun t => t) None false true Toy.w0)) = false.
Proof.
  split.
  - exact (proj1 (proj2 (Animation_init_raises_iff (collab := Toy.collab) AnimationBase
             (PyInt 42 : Toy.PyVal) 0 1 (fun t => t) None false true Toy.w0))
             eq_refl).
  - reflexivity.
Defined.

(** * Further properties of the module *)

(** ** More on clamping *)


Lemma clamp_pos_inv (x : Q) : 0 < clamp x 0 1 -> 0 < x.
Proof.
  unfold clamp. case_Qlt; lra.
Qed.

Section SubAlpha.

Context {World : Type} {collab : Collaborators World}.

Local Abbreviation Anim := (Animation World Mobject).


(** X1.  With lag ratio 0 every member of the family gets the same local
    alpha, the clamped alpha itself, whatever its index and the family
    size. *)
Theorem get_sub_alpha_no_lag (self : Anim) (alpha : Q) (i n : Z) :
  lag_ratio self == 0 ->
  get_sub_alpha self alpha i n == clamp alpha 0 1.
Proof.
  intro Hlag. rewrite get_sub_alpha_unfold. apply clamp_Qeq.
  rewrite Hlag. ring.
Qed.

(** X2.  A family of one member follows the alpha it is given, clamped,
    whatever the lag ratio. *)
Theorem get_sub_alpha_single_member (self : Anim) (alpha : Q) :
  get_sub_alpha self alpha 0 1 == clamp alpha 0 1.
Proof.
  rewrite get_sub_alpha_unfold. apply clamp_Qeq.
  change (inject_Z (1 - 1)) with 0. change (inject_Z 0) with 0. ring.
Qed.

(** X3.  With lag ratio 1 the members run one after the other: the local
    alpha is [clamp(alpha * n - i, 0, 1)], and a member has started only
    when the member before it has finished. *)
Theorem get_sub_alpha_full_lag (self : Anim) (alpha : Q) (i n : Z) :
  lag_ratio self == 1 ->
  get_sub_alpha self alpha i n == clamp (alpha * inject_Z n - inject_Z i) 0 1 /\
  (0 < get_sub_alpha self alpha (i + 1) n -> get_sub_alpha self alpha i n == 1).
Proof.
  intro Hlag.
  assert (E : forall j,
    get_sub_alpha self alpha j n == clamp (alpha * inject_Z n - inject_Z j) 0 1).
  { intro j. rewrite get_sub_alpha_unfold. apply clamp_Qeq.
    rewrite Hlag, inject_Z_pred. ring. }
  split; [apply E|].
  intro Hpos. rewrite (E (i + 1)%Z) in Hpos. apply clamp_pos_inv in Hpos.
  rewrite inject_Z_plus in Hpos. change (inject_Z 1) with 1 in Hpos.
  rewrite (E i). apply clamp_ge_one. lra.
Qed.



(** X6.  For alpha in [0,1], a lag ratio in [0,1] and a family of n >= 1
    members, the first member is at least as far as alpha. *)
Theorem get_sub_alpha_first_member_leads (self : Anim) (alpha : Q) (n : Z) :
  0 <= lag_ratio self <= 1 -> (1 <= n)%Z -> 0 <= alpha <= 1 ->
  alpha <= get_sub_alpha self alpha 0 n.
Proof.
  intros [Hlag _] Hn [Ha0 Ha1].
  assert (Hm : 0 <= inject_Z (n - 1)).
  { change 0 with (inject_Z 0). rewrite <- Zle_Qle. lia. }
  pose proof (Qmult_le_0_compat _ _ Hm Hlag) as Hml.
  pose proof (Qmult_le_0_compat _ _ Ha0 Hml) as H.
  rewrite get_sub_alpha_unfold. change (inject_Z 0) with 0.
  set (x := alpha * (inject_Z (n - 1) * lag_ratio self + 1) - 0 * lag_ratio self).
  assert (alpha <= x) by (unfold x; lra).
  unfold clamp. case_Qlt; lra.
Qed.

End SubAlpha.

(** ** The hook calls of interpolate_mobject *)

Section FamilyInterpolation.

Context {World : Type} {collab : Collaborators World}.

Local Abbreviation Anim := (Animation World Mobject).

Lemma enumerate_from_fst {A : Type} (l : list A) (start : Z) :
  map fst (enumerate_from start l) =
  map (fun k => (start + Z.of_nat k)%Z) (seq 0 (List.length l)).
Proof.
  revert start. induction l as [|x l IH]; intro start; cbn [enumerate_from map].
  - reflexivity.
  - cbn [List.length seq map fst]. f_equal.
    + lia.
    + rewrite IH, <- seq_shift, map_map. apply map_ext. intro k. lia.
Qed.

Lemma enumerate_from_snd {A : Type} (l : list A) (start : Z) :
  map snd (enumerate_from start l) = l.
Proof.
  revert start. induction l as [|x l IH]; intro start; cbn [enumerate_from map snd].
  - reflexivity.
  - now rewrite IH.
Qed.

Lemma enumerate_from_In {A : Type} (l : list A) (start i : Z) (x : A) :
  In (i, x) (enumerate_from start l) -> (start <= i < start + len l)%Z.
Proof.
  revert start. induction l as [|y l IH]; intro start; cbn [enumerate_from In].
  - intros [].
  - unfold len in *. cbn [List.length]. intros [E | HIn].
    + inversion E. lia.
    + apply IH in HIn. lia.
Qed.

Lemma enumerate_length {A : Type} (l : list A) :
  List.length (enumerate l) = List.length l.
Proof.
  unfold enumerate.
  rewrite <- (length_map snd (enumerate_from 0 l)), enumerate_from_snd.
  reflexivity.
Qed.

(** A loop whose body makes one call per element. *)
Lemma for_each_run {A : Type} (body : A -> M unit) (c : A -> Call)
    (f : A -> World -> World) :
  (forall x w, body x w = (tt, f x w, [c x])) ->
  forall l w,
    for_each l body w = (tt, fold_left (fun w' x => f x w') l w, map c l).
Proof.
  intros Hbody l. induction l as [|x l IH]; intro w; cbn [for_each fold_left map].
  - reflexivity.
  - unfold bind. rewrite Hbody, IH. reflexivity.
Qed.

(** What the base hook or the hook of the subclass does to the world. *)
Definition hook_effect (self : Anim) (sub start : Mobject) (alpha : Q)
  : World -> World :=
  match klass self with
  | AnimationKind _ hook => hook sub start alpha
  | _ => fun w => w
  end.

Lemma interpolate_mobject_run (self : Anim) (alpha : Q) (w : World) :
  let families := result_of (get_all_families_zipped self w) in
  interpolate_mobject self alpha w =
    (tt,
     fold_left (fun w' p =>
        hook_effect self (fst (snd p)) (snd (snd p))
          (get_sub_alpha self alpha (fst p) (len families)) w')
       (enumerate families) w,
     map (fun p =>
        CallInterpolateSubmobject (fst (snd p)) (snd (snd p))
          (get_sub_alpha self alpha (fst p) (len families)))
       (enumerate families)).
Proof.
  cbv zeta. unfold interpolate_mobject, bind.
  unfold get_all_families_zipped, get_all_mobjects, query, result_of.
  cbn [fst snd].
  set (families := combine _ _).
  rewrite (for_each_run _
    (fun p => CallInterpolateSubmobject (fst (snd p)) (snd (snd p))
                (get_sub_alpha self alpha (fst p) (len families)))
    (fun p => hook_effect self (fst (snd p)) (snd (snd p))
                (get_sub_alpha self alpha (fst p) (len families)))).
  - reflexivity.
  - intros [i mobs] w'. reflexivity.
Qed.

(** X7.  [interpolate_mobject] calls the hook once per pair of the zipped
    families, in family order, the pair at position k with the local alpha
    of index k among [len(families)]; the number of calls is the size of
    the shorter family. *)
Theorem interpolate_mobject_calls_in_order (self : Anim) (alpha : Q) (w : World) :
  let families := result_of (get_all_families_zipped self w) in
  calls_of (interpolate_mobject self alpha w) =
    map (fun p =>
        CallInterpolateSubmobject (fst (snd p)) (snd (snd p))
          (get_sub_alpha self alpha (fst p) (len families)))
      (enumerate families) /\
  map fst (enumerate families) = map Z.of_nat (seq 0 (List.length families)) /\
  map snd (enumerate families) = families /\
  List.length (calls_of (interpolate_mobject self alpha w)) =
    Nat.min (List.length (family_members_with_points (mobject self) w))
            (List.length (family_members_with_points (starting_mobject self) w)).
Proof.
  cbv zeta. pose proof (interpolate_mobject_run self alpha w) as Hrun.
  cbv zeta in Hrun. rewrite Hrun. unfold calls_of. cbn [snd].
  split; [reflexivity|]. split; [|split].
  - unfold enumerate. rewrite enumerate_from_fst. apply map_ext. intro k. lia.
  - apply enumerate_from_snd.
  - rewrite length_map, enumerate_length.
    unfold get_all_families_zipped, get_all_mobjects, query, result_of.
    cbn [fst snd]. apply length_combine.
Qed.

Definition hook_alpha_is (q : Q) (c : Call) : Prop :=
  match c with
  | CallInterpolateSubmobject _ _ alpha => alpha == q
  | _ => True
  end.

(** X8.  With a lag ratio in [0,1], [interpolate_mobject(0)] hands local
    alpha 0 to every member of the family; [interpolate_mobject(1)] hands
    local alpha 1 to the first member, and to every member when the lag
    ratio is 0 or 1. *)
Theorem interpolate_mobject_at_ends (self : Anim) (w : World) :
  0 <= lag_ratio self <= 1 ->
  Forall (hook_alpha_is 0) (calls_of (interpolate_mobject self 0 w)) /\
  match calls_of (interpolate_mobject self 1 w) with
  | c :: _ => hook_alpha_is 1 c
  | [] => True
  end /\
  (lag_ratio self == 0 \/ lag_ratio self == 1 ->
   Forall (hook_alpha_is 1) (calls_of (interpolate_mobject self 1 w))).
Proof.
  intros [Hlag _].
  pose proof (interpolate_mobject_run self 0 w) as H0.
  pose proof (interpolate_mobject_run self 1 w) as H1.
  cbv zeta in H0, H1. rewrite H0, H1. unfold calls_of. cbn [snd].
  split; [|split].
  - apply Forall_forall; intros c Hc; apply in_map_iff in Hc.
    destruct Hc as ([i mobs] & <- & HIn). cbn [fst snd hook_alpha_is].
    apply enumerate_from_In in HIn.
    apply (get_sub_alpha_exact_ends self i _ Hlag). lia.
  - destruct (result_of (get_all_families_zipped self w)) as [|x l]; [exact I|].
    unfold enumerate. cbn [enumerate_from map fst snd hook_alpha_is].
    apply (get_sub_alpha_exact_ends self 0 _ Hlag).
    unfold len. cbn [List.length]. lia.
  - intros _. apply Forall_forall; intros c Hc; apply in_map_iff in Hc.
    destruct Hc as ([i mobs] & <- & HIn). cbn [fst snd hook_alpha_is].
    apply enumerate_from_In in HIn.
    apply (get_sub_alpha_exact_ends self i _ Hlag). lia.
Qed.

(** X9.  For an instance of [Animation] itself, whose hook is [pass],
    [interpolate] leaves the world as it is, whatever the families. *)
Theorem base_interpolate_keeps_world (self : Anim) (alpha : Q) (w : World) :
  klass self = AnimationBase ->
  world_of (interpolate self alpha w) = w.
Proof.
  intro Hk. unfold interpolate, is_Wait. rewrite Hk.
  unfold Animation_interpolate. cbv zeta.
  pose proof (interpolate_mobject_run self
                (rate_func self (py_min (py_max alpha 0) 1)) w) as Hrun.
  cbv zeta in Hrun. rewrite Hrun. unfold world_of. cbn [fst snd].
  unfold hook_effect. rewrite Hk.
  generalize (enumerate (result_of (get_all_families_zipped self w))).
  intro l. induction l as [|p l IH]; cbn [fold_left]; [reflexivity|exact IH].
Qed.

End FamilyInterpolation.

(** ** Lifecycle, construction and normalisation, continued *)

Section Lifecycle.

Context {World : Type} {collab : Collaborators World}.

Local Abbreviation Anim := (Animation World Mobject).

(** The calls that switch the updating of a mobject off or on. *)
Definition is_updating_switch (c : Call) : bool :=
  match c with
  | CallSuspendUpdating _ | CallResumeUpdating _ => true
  | _ => false
  end.

Lemma hook_calls_switch_nothing (l : list Call) :
  Forall is_hook_call l -> filter is_updating_switch l = [].
Proof.
  induction 1 as [|c l Hc _ IH]; cbn [filter]; [reflexivity|].
  destruct c; cbn in Hc; try contradiction. cbn [is_updating_switch]. exact IH.
Qed.

(** X10.  [Animation.update_mobjects(dt)] updates the starting mobject
    once and nothing else; when the starting mobject is the mobject itself
    it updates nothing.  No class ever updates [self.mobject] here. *)
Theorem update_mobjects_only_starting_mobject (self : Anim) (dt : Q) (w : World) :
  Animation_update_mobjects self dt w =
    (if Mobject_is (starting_mobject self) (mobject self)
     then (tt, w, [])
     else (tt, Mobject_update (starting_mobject self) dt w,
           [CallUpdate (starting_mobject self) dt])) /\
  forall dt', ~ In (CallUpdate (mobject self) dt')
                   (calls_of (update_mobjects self dt w)).
Proof.
  assert (E : Animation_update_mobjects self dt w =
    (if Mobject_is (starting_mobject self) (mobject self)
     then (tt, w, [])
     else (tt, Mobject_update (starting_mobject self) dt w,
           [CallUpdate (starting_mobject self) dt]))).
  { unfold Animation_update_mobjects, get_all_mobjects_to_update,
      get_all_mobjects. cbn [filter].
    destruct (Mobject_is (mobject self) (mobject self)) as [_|Hne];
      [|exfalso; apply Hne; reflexivity].
    destruct (Mobject_is (starting_mobject self) (mobject self));
      reflexivity. }
  split; [exact E|].
  intros dt' HIn. unfold update_mobjects in HIn.
  destruct (is_Wait self).
  - exact HIn.
  - rewrite E in HIn.
    destruct (Mobject_is (starting_mobject self) (mobject self)) as [Heq|Hne].
    + exact HIn.
    + destruct HIn as [HIn|[]]. inversion HIn. apply Hne. assumption.
Qed.

(** [Animation.begin()], step by step. *)
Lemma Animation_begin_run (self : Anim) (w : World) :
  let copied := Mobject_copy (mobject self) w in
  let self' := set_starting_mobject self (fst copied) in
  let w1 := if suspend_mobject_updating self
            then suspend_updating (mobject self) (snd copied)
            else snd copied in
  Animation_begin self w =
    (self', world_of (interpolate self' 0 w1),
     CallCopy (mobject self) (fst copied)
     :: (if suspend_mobject_updating self
         then [CallSuspendUpdating (mobject self)] else [])
        ++ calls_of (interpolate self' 0 w1)).
Proof.
  cbv zeta.
  unfold Animation_begin, create_starting_mobject, call_new, bind, call, ret.
  destruct (Mobject_copy (mobject self) w) as [copy w1].
  cbn [fst snd set_starting_mobject suspend_mobject_updating mobject].
  destruct (suspend_mobject_updating self);
    match goal with
    | |- context [interpolate ?a 0 ?b] =>
        destruct (interpolate a 0 b) as [[u w2] l2]
    end;
    unfold world_of, calls_of; cbn [fst snd app];
    rewrite app_nil_r; reflexivity.
Qed.

(** X11.  [Animation.begin()] replaces the starting mobject by a copy of
    the mobject, made before anything else is called, and leaves every
    other attribute, the mobject included, as it was. *)
Theorem Animation_begin_takes_snapshot (self : Anim) (w : World) :
  let started := Animation_begin self w in
  result_of started =
    set_starting_mobject self (fst (Mobject_copy (mobject self) w)) /\
  exists rest,
    calls_of started =
      CallCopy (mobject self) (starting_mobject (result_of started)) :: rest.
Proof.
  cbv zeta. pose proof (Animation_begin_run self w) as Hrun.
  cbv zeta in Hrun. rewrite Hrun.
  unfold result_of, calls_of. cbn [fst snd]. split; [reflexivity|].
  eexists. reflexivity.
Qed.

(** X12.  What [begin] suspends, [finish] resumes: when
    [suspend_mobject_updating] is set, [Animation.begin()] suspends the
    mobject once and [Animation.finish()] on the begun instance resumes
    that same mobject once; when it is not set, neither call is made. *)
Theorem begin_finish_suspension_balanced (self : Anim) (w w' : World) :
  let started := Animation_begin self w in
  filter is_updating_switch (calls_of started) =
    (if suspend_mobject_updating self
     then [CallSuspendUpdating (mobject self)] else []) /\
  filter is_updating_switch
    (calls_of (Animation_finish (result_of started) w')) =
    (if suspend_mobject_updating self
     then [CallResumeUpdating (mobject self)] else []).
Proof.
  cbv zeta. pose proof (Animation_begin_run self w) as Hrun.
  cbv zeta in Hrun. rewrite Hrun. clear Hrun.
  set (self' := set_starting_mobject self _).
  unfold result_of, calls_of at 1 3. cbn [fst snd]. split.
  - match goal with
    | |- context [calls_of (interpolate self' 0 ?x)] =>
        pose proof (interpolate_calls is_hook_call self' 0 x
                      (fun _ _ _ _ _ => I)) as Hh;
        generalize dependent (calls_of (interpolate self' 0 x))
    end.
    intros l Hh. cbn [filter is_updating_switch].
    destruct (suspend_mobject_updating self);
      cbn [app filter is_updating_switch];
      rewrite (hook_calls_switch_nothing _ Hh); reflexivity.
  - unfold Animation_finish, bind, is_not_None, call, ret.
    pose proof (interpolate_calls is_hook_call self' 1 w'
                  (fun _ _ _ _ _ => I)) as Hh.
    destruct (interpolate self' 1 w') as [[u w2] l2].
    unfold calls_of in Hh. cbn [snd] in Hh.
    unfold self'. cbn [set_starting_mobject suspend_mobject_updating mobject].
    rewrite andb_true_r.
    destruct (suspend_mobject_updating self); cbn [snd];
      rewrite filter_app, (hook_calls_switch_nothing _ Hh); reflexivity.
Qed.

End Lifecycle.

Section Construction.

Context {World : Type} {collab : Collaborators World}.

Local Abbreviation Anim := (Animation World Mobject).

(** X13.  A rejected construction has no effect: when the target is
    neither [None] nor a renderable, [Animation.__init__] raises before it
    creates any Mobject; the world is untouched and nothing is logged. *)
Theorem Animation_init_rejects_without_effect (cls : PyClass World Mobject)
    (target : PyValue) (lag t : Q) (f : Q -> Q) (n : option string)
    (r s : bool) (w : World) :
  is_None target = false ->
  isinstance_Mobject target = false ->
  isinstance_OpenGLMobject target = false ->
  Animation_init cls target lag t f n r s w =
    (Raise (TypeError "Animation only works on Mobjects"), w, []).
Proof.
  intros HN HM HG.
  unfold Animation_init, _typecheck_input, bind, ret.
  rewrite HN, HM, HG. reflexivity.
Qed.

(** Without extra keyword arguments and without a CONFIG attribute the
    full constructor is [Animation_init]. *)
Lemma Animation_init_kwargs_plain (cls : PyClass World Mobject)
    (target : PyValue) (lag t : Q) (f : Q -> Q) (n : option string)
    (r s : bool) (w : World) :
  Animation_init_kwargs cls false target lag t f n r s [] w =
  Animation_init cls target lag t f n r s w.
Proof.
  unfold Animation_init_kwargs, Animation_init, bind, ret.
  destruct (_typecheck_input target w) as [[[u|e] w1] l1]; [|reflexivity].
  destruct (new_Mobject w1) as [[sm w2] l2].
  destruct (match target with
            | PyMobject m | PyOpenGLMobject m => fun w0 => (m, w0, [])
            | _ => new_Mobject
            end w2) as [[tm w3] l3].
  rewrite !app_nil_r. reflexivity.
Qed.

(** X14.  Given a renderable, [Animation.__init__] keeps it as the mobject
    without calling anything on it.  It creates one new Mobject, the
    placeholder starting mobject; it logs a debug message when there are
    extra keyword arguments and an error when the instance has a CONFIG
    attribute; it makes no other call, and the arguments are stored as
    given. *)
Theorem Animation_init_kwargs_keeps_target (cls : PyClass World Mobject)
    (has_CONFIG : bool) (target : PyValue) (m : Mobject) (lag t : Q)
    (f : Q -> Q) (n : option string) (r s : bool) (kwargs : ExtraKwargs)
    (w : World) :
  target = PyMobject m \/ target = PyOpenGLMobject m ->
  Animation_init_kwargs cls has_CONFIG target lag t f n r s kwargs w =
    (Ok {| klass := cls; run_time := t; rate_func := f; name := n;
           remover := r; suspend_mobject_updating := s; lag_ratio := lag;
           starting_mobject := fst (Mobject_new w); mobject := m |},
     snd (Mobject_new w),
     CallMobjectNew (fst (Mobject_new w))
     :: match kwargs with
        | [] => []
        | _ => [LoggerDebug ("Animation received extra kwargs: "
                             ++ dict_str kwargs)%string]
        end
     ++ (if has_CONFIG
         then [LoggerError ["CONFIG has been removed from ManimCommunity.";
                            "Please use keyword arguments instead."]%string]
         else [])).
Proof.
  intros [-> | ->];
    unfold Animation_init_kwargs, _typecheck_input, bind, ret, new_Mobject,
      call_new, logger_debug, logger_error, call;
    cbn [is_None isinstance_Mobject isinstance_OpenGLMobject negb andb];
    destruct (Mobject_new w) as [sm w1];
    destruct kwargs as [|kv kwargs]; destruct has_CONFIG; reflexivity.
Qed.

(** X15.  [Wait.__init__] raises exactly when it is given the keyword
    [mobject], and then before anything is created.  Otherwise it logs the
    empty mobject, creates two Mobjects, the starting mobject first and
    the mobject second, logs the extra keyword arguments if there are
    any, resets the shader wrapper list of the mobject, and returns a Wait
    whose duration is its run time, whose [is_static_wait] is false, and
    whose other attributes are the keywords given or their defaults. *)
Theorem Wait_init_raises_only_on_mobject_keyword (smooth : Q -> Q) (t : Q)
    (stop : option (unit -> bool)) (kwargs : WaitKwargs) (w : World) :
  let first := Mobject_new w in
  let second := Mobject_new (snd first) in
  Wait_init smooth t stop kwargs w =
    match kw_mobject kwargs with
    | Some _ =>
        (Raise (TypeError
           "Animation.__init__() got multiple values for argument 'mobject'"),
         w, [])
    | None =>
        (Ok {| klass := WaitKind t stop false; run_time := t;
               rate_func := or_default (kw_rate_func kwargs) smooth;
               name := kw_name kwargs;
               remover := or_default (kw_remover kwargs) false;
               suspend_mobject_updating :=
                 or_default (kw_suspend_mobject_updating kwargs) true;
               lag_ratio := or_default (kw_lag_ratio kwargs) 0;
               starting_mobject := fst first;
               mobject := fst second |},
         reset_shader_wrapper_list (fst second) (snd second),
         LoggerDebug "Animation with empty mobject"
         :: CallMobjectNew (fst first) :: CallMobjectNew (fst second)
         :: match kw_extra kwargs with
            | [] => []
            | _ => [LoggerDebug ("Animation received extra kwargs: "
                                 ++ dict_str (kw_extra kwargs))%string]
            end
         ++ [CallResetShaderWrapperList (fst second)])
    end.
Proof.
  cbv zeta. unfold Wait_init.
  destruct (kw_mobject kwargs); [reflexivity|].
  unfold Animation_init_kwargs, _typecheck_input, bind, ret, new_Mobject,
    call_new, logger_debug, logger_error, call, DEFAULT_ANIMATION_LAG_RATIO.
  cbn [is_None].
  destruct (Mobject_new w) as [m1 w1]. cbn [fst snd].
  destruct (Mobject_new w1) as [m2 w2].
  destruct (kw_extra kwargs) as [|kv rest]; reflexivity.
Qed.

(** X16.  Normalising twice is normalising once: what [prepare_animation]
    returns is accepted by [prepare_animation] as it is, without a call
    and without a change of the world. *)
Theorem prepare_animation_idempotent (anim v : PyValue) (w w1 : World)
    (l : list Call) :
  prepare_animation anim w = (Ok v, w1, l) ->
  forall w2, prepare_animation v w2 = (Ok v, w2, []).
Proof.
  intros H w2.
  assert (Hv : isinstance_Animation v = true).
  { destruct anim; unfold prepare_animation, build, bind, ret in H;
      try (destruct (Builder_build b w) as [a' w']);
      try (destruct (py_str _ w) as [[s' w'] l']);
      cbn in H; inversion H; reflexivity. }
  destruct v; try discriminate Hv. reflexivity.
Qed.

(** X17.  [str] of an animation after [set_name(n)] is [n] when [n] is not
    empty; with the empty name it is the class name around [str] of the
    mobject, as for an animation without a name.  [str] changes nothing. *)
Theorem Animation_str_after_set_name (self : Anim) (n : string) (w : World) :
  Animation_str (set_name self n) w =
    ((if String.eqb n "" then
        class_name (klass self) ++ "(" ++ Mobject_str (mobject self) w ++ ")"
      else n)%string, w, []).
Proof.
  unfold Animation_str, set_name. cbn [name klass mobject].
  destruct n as [|c n']; reflexivity.
Qed.

End Construction.

(** ** The further statements, run in the concrete world *)

Module ToyMore.

(** An animation of root 0 of [Toy.w3] whose members run one after the
    other. *)
Definition successive : Toy.Anim :=
  {| klass := AnimationKind "Successive" Toy.record_alpha;
     run_time := 1; rate_func := fun t => t; name := None; remover := false;
     suspend_mobject_updating := true; lag_ratio := 1;
     starting_mobject := 3%nat; mobject := 0%nat |}.

(** An instance of Animation itself on root 0 of [Toy.w3]. *)
Definition plain : Toy.Anim :=
  {| klass := AnimationBase;
     run_time := 1; rate_func := fun t => t; name := None; remover := false;
     suspend_mobject_updating := true; lag_ratio := 1 # 2;
     starting_mobject := 3%nat; mobject := 0%nat |}.

End ToyMore.

Lemma get_sub_alpha_no_lag_witness :
  lag_ratio Toy.still == 0 /\
  get_sub_alpha Toy.still (1 # 3) 2 5 == clamp (1 # 3) 0 1.
Proof.
  assert (Hlag : lag_ratio Toy.still == 0) by reflexivity.
  split; [exact Hlag|].
  exact (get_sub_alpha_no_lag (collab := Toy.collab) Toy.still (1 # 3) 2 5 Hlag).
Defined.

Lemma get_sub_alpha_full_lag_witness :
  lag_ratio ToyMore.successive == 1 /\
  get_sub_alpha ToyMore.successive (5 # 8) 1 4
    == clamp ((5 # 8) * inject_Z 4 - inject_Z 1) 0 1 /\
  (0 < get_sub_alpha ToyMore.successive (5 # 8) (1 + 1) 4 ->
   get_sub_alpha ToyMore.successive (5 # 8) 1 4 == 1).
Proof.
  assert (Hlag : lag_ratio ToyMore.successive == 1) by reflexivity.
  split; [exact Hlag|].
  exact (get_sub_alpha_full_lag (collab := Toy.collab) ToyMore.successive
           (5 # 8) 1 4 Hlag).
Defined.



Lemma get_sub_alpha_first_member_leads_witness :
  0 <= lag_ratio Toy.lagged <= 1 /\ (1 <= 3)%Z /\ 0 <= 2 # 5 <= 1 /\
  2 # 5 <= get_sub_alpha Toy.lagged (2 # 5) 0 3.
Proof.
  assert (Hlag : 0 <= lag_ratio Toy.lagged <= 1) by (cbn; lra).
  assert (Hn : (1 <= 3)%Z) by lia.
  assert (Ha : 0 <= 2 # 5 <= 1) by lra.
  split; [exact Hlag|]. split; [exact Hn|]. split; [exact Ha|].
  exact (get_sub_alpha_first_member_leads (collab := Toy.collab) Toy.lagged
           (2 # 5) 3 Hlag Hn Ha).
Defined.

Lemma interpolate_mobject_at_ends_witness :
  0 <= lag_ratio Toy.lagged <= 1 /\
  List.length (calls_of (interpolate_mobject Toy.lagged 1 Toy.w3)) = 3%nat /\
  Forall (hook_alpha_is 0) (calls_of (interpolate_mobject Toy.lagged 0 Toy.w3)) /\
  match calls_of (interpolate_mobject Toy.lagged 1 Toy.w3) with
  | c :: _ => hook_alpha_is 1 c
  | [] => True
  end /\
  (lag_ratio Toy.lagged == 0 \/ lag_ratio Toy.lagged == 1 ->
   Forall (hook_alpha_is 1) (calls_of (interpolate_mobject Toy.lagged 1 Toy.w3))).
Proof.
  assert (Hlag : 0 <= lag_ratio Toy.lagged <= 1) by (cbn; lra).
  split; [exact Hlag|]. split; [reflexivity|].
  exact (interpolate_mobject_at_ends (collab := Toy.collab) Toy.lagged Toy.w3
           Hlag).
Defined.

Lemma base_interpolate_keeps_world_witness :
  klass ToyMore.plain = AnimationBase /\
  List.length (result_of (get_all_families_zipped ToyMore.plain Toy.w3)) = 3%nat /\
  world_of (interpolate ToyMore.plain (1 # 2) Toy.w3) = Toy.w3.
Proof.
  assert (Hk : klass ToyMore.plain = AnimationBase) by reflexivity.
  split; [exact Hk|]. split; [reflexivity|].
  exact (base_interpolate_keeps_world (collab := Toy.collab) ToyMore.plain
           (1 # 2) Toy.w3 Hk).
Defined.

Lemma Animation_init_rejects_without_effect_witness :
  Animation_init AnimationBase (PyStr "circle" : Toy.PyVal) 0 1 (fun t => t)
    None false true Toy.w3 =
  (Raise (TypeError "Animation only works on Mobjects"), Toy.w3, []).
Proof.
  exact (Animation_init_rejects_without_effect (collab := Toy.collab)
           AnimationBase (PyStr "circle") 0 1 (fun t => t) None false true
           Toy.w3 eq_refl eq_refl eq_refl).
Defined.

Lemma Animation_init_kwargs_keeps_target_witness :
  exists self,
    Animation_init_kwargs AnimationBase true (PyMobject 0%nat : Toy.PyVal)
      (1 # 2) 1 (fun t => t) None false true [("color", "'RED'")]%string
      Toy.w3 =
      (Ok self, snd (Toy.new Toy.w3),
       [CallMobjectNew 6%nat;
        LoggerDebug "Animation received extra kwargs: {'color': 'RED'}";
        LoggerError ["CONFIG has been removed from ManimCommunity.";
                     "Please use keyword arguments instead."]]%string) /\
    mobject self = 0%nat /\ starting_mobject self = 6%nat.
Proof.
  eexists. split.
  - exact (Animation_init_kwargs_keeps_target (collab := Toy.collab)
             AnimationBase true (PyMobject 0%nat) 0%nat (1 # 2) 1
             (fun t => t) None false true [("color", "'RED'")]%string
             Toy.w3 (or_introl eq_refl)).
  - split; reflexivity.
Defined.

Lemma prepare_animation_idempotent_witness :
  exists v,
    result_of (prepare_animation
                 (PyAnimationBuilder (collab := Toy.collab) 0%nat) Toy.w3)
      = Ok v /\
    prepare_animation v Toy.w0 = (Ok v, Toy.w0, []).
Proof.
  eexists. split.
  - reflexivity.
  - eapply (prepare_animation_idempotent (collab := Toy.collab)
              (PyAnimationBuilder (collab := Toy.collab) 0%nat) _ Toy.w3).
    reflexivity.
Defined.
